(** * Time-block scheduling, Pomodoro completion and calendar reads

    A shallow embedding of server handlers of the productivity application:
    - [createTimeBlock]     (server/src/handlers/create_time_block.ts),
    - [updatePomodoroSession] (the update_pomodoro_session handler),
    - [getCalendarData]     (server/src/handlers/get_calendar_data.ts),
    and of the handlers that read or write the same tables:
    [getTimeBlocks], [getPomodoroSessions], [getProductivityStats],
    [createPomodoroSession], [deleteTask], [deleteEvent], [createReminder],
    [getReminders] and [backupUserData].  The handlers that touch the
    reminders table run on a [store] that adds it to the tables of [db].

    The relational store is a record of tables (lists of rows, in insertion
    order); serial primary keys are modelled by per-table counters, and an
    insert that fails its foreign-key check has already drawn its serial
    value.  Integer columns are 32-bit: an UPDATE whose sum leaves that range
    raises and writes nothing.  Handlers
    run in a small state-and-error monad: a thrown [Error] aborts the handler
    but keeps every write done before it (the handlers use no transaction).
    Timestamps are JavaScript [Date] values, i.e. milliseconds as [Z]. *)

From Stdlib Require Import ZArith List String Bool Lia Sorted Permutation DecimalString.
Import ListNotations.
Open Scope Z_scope.

(** ** SQL three-valued logic, for the WHERE clauses *)

Inductive sqlbool := STrue | SFalse | SNull.

Definition sql_and (a b : sqlbool) : sqlbool :=
  match a, b with
  | SFalse, _ | _, SFalse => SFalse
  | STrue, STrue => STrue
  | _, _ => SNull
  end.

(** A comparison on a nullable column: NULL compares to NULL. *)
Definition sql_cmp (f : Z -> Z -> bool) (a b : option Z) : sqlbool :=
  match a, b with
  | Some x, Some y => if f x y then STrue else SFalse
  | _, _ => SNull
  end.

Definition sql_eq  := sql_cmp Z.eqb.
Definition sql_lt  := sql_cmp Z.ltb.
Definition sql_gt  := sql_cmp (fun x y => Z.ltb y x).
Definition sql_gte := sql_cmp (fun x y => Z.leb y x).
Definition sql_lte := sql_cmp Z.leb.

(** [WHERE p]: only rows for which [p] is TRUE are kept. *)
Definition where_ {A} (p : A -> sqlbool) (rows : list A) : list A :=
  filter (fun r => match p r with STrue => true | _ => false end) rows.

(** ** Tables (server/src/db/schema.ts) *)

Record user := mkUser { u_id : Z }.

Record task := mkTask {
  t_id : Z;
  t_user_id : Z;
  t_title : string;
  t_due_date : option Z;
  t_actual_duration : option Z;
  t_updated_at : Z
}.

Record event := mkEvent {
  e_id : Z;
  e_user_id : Z;
  e_title : string;
  e_start_time : Z;
  e_end_time : Z
}.

Record time_block := mkTimeBlock {
  tb_id : Z;
  tb_user_id : Z;
  tb_task_id : option Z;
  tb_event_id : option Z;
  tb_title : string;
  tb_start_time : Z;
  tb_end_time : Z;
  tb_color : option string;
  tb_created_at : Z
}.

Inductive pomodoro_status := running | paused | completed | cancelled.

Definition pomodoro_status_eqb (a b : pomodoro_status) : bool :=
  match a, b with
  | running, running | paused, paused
  | completed, completed | cancelled, cancelled => true
  | _, _ => false
  end.

(** The table has no [updated_at] column: the handler's [updated_at] key in
    its [.set(...)] object names no column and is dropped by the ORM. *)
Record pomodoro_session := mkSession {
  ps_id : Z;
  ps_user_id : Z;
  ps_task_id : option Z;
  ps_duration : Z;
  ps_break_duration : Z;
  ps_status : pomodoro_status;
  ps_started_at : Z;
  ps_completed_at : option Z
}.

Record productivity_stats := mkStats {
  st_id : Z;
  st_user_id : Z;
  st_date : Z;
  st_tasks_completed : Z;
  st_tasks_created : Z;
  st_total_focus_time : Z;
  st_pomodoro_sessions : Z;
  st_events_attended : Z
}.

Record db := mkDb {
  usersTable : list user;
  tasksTable : list task;
  eventsTable : list event;
  timeBlocksTable : list time_block;
  pomodoroSessionsTable : list pomodoro_session;
  productivityStatsTable : list productivity_stats;
  next_time_block_id : Z;
  next_stats_id : Z
}.

(** ** Errors thrown by the handlers *)

Inductive error :=
  | UserNotFound            (* 'User not found' *)
  | TaskNotFound            (* 'Task not found or does not belong to user' *)
  | EventNotFound           (* 'Event not found or does not belong to user' *)
  | InvalidTimeRange        (* 'End time must be after start time' *)
  | TimeBlockConflict       (* 'Time block conflicts with existing time blocks' *)
  | SessionNotFound         (* 'Pomodoro session not found' *)
  | ForeignKeyViolation     (* raised by the store on a dangling reference *)
  | IntegerOutOfRange.      (* 'integer out of range', raised by the store *)

(** ** The handler monad: state of the store, and thrown errors *)

Definition M (A : Type) : Type := db -> (error + A) * db.

Definition ret {A} (a : A) : M A := fun s => (inr a, s).
Definition bind {A B} (m : M A) (k : A -> M B) : M B :=
  fun s => match m s with
           | (inl e, s') => (inl e, s')
           | (inr a, s') => k a s'
           end.
Definition throw {A} (e : error) : M A := fun s => (inl e, s).
Definition read {A} (f : db -> A) : M A := fun s => (inr (f s), s).
Definition modify (f : db -> db) : M unit := fun s => (inr tt, f s).

Notation "x <- m ;; k" := (bind m (fun x => k))
  (at level 61, m at next level, right associativity).
Notation "m ;;; k" := (bind m (fun _ => k))
  (at level 61, right associativity).

(** JavaScript truthiness of a nullable integer id ([if (input.task_id)]):
    [null] and [0] are falsy. *)
Definition truthy_id (o : option Z) : option Z :=
  match o with
  | Some t => if Z.eqb t 0 then None else Some t
  | None => None
  end.

(** Postgres [integer] columns hold 32-bit values; [integer + integer]
    raises 'integer out of range' when the sum leaves that range. *)
Definition int4_min : Z := -2147483648.
Definition int4_max : Z := 2147483647.
Definition int4_fits (z : Z) : bool := (int4_min <=? z) && (z <=? int4_max).

(** ** createTimeBlock *)

Record CreateTimeBlockInput := mkCreateTimeBlockInput {
  in_user_id : Z;
  in_task_id : option Z;
  in_event_id : option Z;
  in_title : string;
  in_start_time : Z;
  in_end_time : Z;
  in_color : option string
}.

(** [db.insert(timeBlocksTable).values(...).returning()]: the store checks the
    foreign keys, draws the serial id and the [defaultNow()] creation time.
    The serial value is drawn before the foreign keys are checked, so a
    failed insert still advances the sequence. *)
Definition insert_time_block (now : Z) (i : CreateTimeBlockInput) : M time_block :=
  fun s =>
    let fk_ok :=
      existsb (fun u => Z.eqb (u_id u) (in_user_id i)) (usersTable s)
      && match in_task_id i with
         | Some t => existsb (fun x => Z.eqb (t_id x) t) (tasksTable s)
         | None => true end
      && match in_event_id i with
         | Some e => existsb (fun x => Z.eqb (e_id x) e) (eventsTable s)
         | None => true end in
    if fk_ok then
      let b := mkTimeBlock (next_time_block_id s) (in_user_id i) (in_task_id i)
                 (in_event_id i) (in_title i) (in_start_time i) (in_end_time i)
                 (in_color i) now in
      (inr b, mkDb (usersTable s) (tasksTable s) (eventsTable s) (timeBlocksTable s ++ [b])
                   (pomodoroSessionsTable s) (productivityStatsTable s)
                   (next_time_block_id s + 1) (next_stats_id s))
    else (inl ForeignKeyViolation,
          mkDb (usersTable s) (tasksTable s) (eventsTable s) (timeBlocksTable s)
               (pomodoroSessionsTable s) (productivityStatsTable s)
               (next_time_block_id s + 1) (next_stats_id s)).

(** The WHERE clause of the conflict query. *)
Definition conflict_where (i : CreateTimeBlockInput) (b : time_block) : sqlbool :=
  sql_and (sql_eq (Some (tb_user_id b)) (Some (in_user_id i)))
          (sql_and (sql_lt (Some (tb_start_time b)) (Some (in_end_time i)))
                   (sql_gt (Some (tb_end_time b)) (Some (in_start_time i)))).

Definition createTimeBlock (i : CreateTimeBlockInput) (now : Z) : M time_block :=
  userExists <- read (fun s => where_ (fun u => sql_eq (Some (u_id u)) (Some (in_user_id i))) (usersTable s)) ;;
  (if Nat.eqb (List.length userExists) 0 then throw UserNotFound else ret tt) ;;;
  (match truthy_id (in_task_id i) with
   | Some t =>
       taskExists <- read (fun s => where_ (fun x =>
                        sql_and (sql_eq (Some (t_id x)) (Some t))
                                (sql_eq (Some (t_user_id x)) (Some (in_user_id i)))) (tasksTable s)) ;;
       if Nat.eqb (List.length taskExists) 0 then throw TaskNotFound else ret tt
   | None => ret tt
   end) ;;;
  (match truthy_id (in_event_id i) with
   | Some e =>
       eventExists <- read (fun s => where_ (fun x =>
                        sql_and (sql_eq (Some (e_id x)) (Some e))
                                (sql_eq (Some (e_user_id x)) (Some (in_user_id i)))) (eventsTable s)) ;;
       if Nat.eqb (List.length eventExists) 0 then throw EventNotFound else ret tt
   | None => ret tt
   end) ;;;
  (if Z.leb (in_end_time i) (in_start_time i) then throw InvalidTimeRange else ret tt) ;;;
  conflictingBlocks <- read (fun s => where_ (conflict_where i) (timeBlocksTable s)) ;;
  (if Nat.ltb 0 (List.length conflictingBlocks) then throw TimeBlockConflict else ret tt) ;;;
  insert_time_block now i.

(** ** updatePomodoroSession *)

(** [completed_at: z.coerce.date().nullable().optional()]:
    [None] is [undefined], [Some None] is [null], [Some (Some d)] a date. *)
Record UpdatePomodoroSessionInput := mkUpdatePomodoroSessionInput {
  up_id : Z;
  up_status : pomodoro_status;
  up_completed_at : option (option Z)
}.

(** JavaScript [!input.completed_at]: [undefined] and [null] are falsy, a
    [Date] object is truthy. *)
Definition completed_at_falsy (c : option (option Z)) : bool :=
  match c with Some (Some _) => false | _ => true end.

(** The [updateData] object: the status, and [Some v] when the
    [completed_at] key is set to [v]. *)
Definition update_completed_at (i : UpdatePomodoroSessionInput) (now : Z)
  : option (option Z) :=
  let c := match up_completed_at i with
           | Some v => Some v           (* input.completed_at !== undefined *)
           | None => None
           end in
  if pomodoro_status_eqb (up_status i) completed && completed_at_falsy (up_completed_at i)
  then Some (Some now)
  else c.

Definition set_session (st : pomodoro_status) (c : option (option Z))
  (p : pomodoro_session) : pomodoro_session :=
  mkSession (ps_id p) (ps_user_id p) (ps_task_id p) (ps_duration p)
    (ps_break_duration p) st (ps_started_at p)
    (match c with Some v => v | None => ps_completed_at p end).

Definition session_id_where (id : Z) (p : pomodoro_session) : sqlbool :=
  sql_eq (Some (ps_id p)) (Some id).

(** [db.update(pomodoroSessionsTable).set(updateData).where(id = ...).returning()] *)
Definition update_sessions (id : Z) (st : pomodoro_status) (c : option (option Z))
  : M (list pomodoro_session) :=
  fun s =>
    let upd p := match session_id_where id p with
                 | STrue => set_session st c p | _ => p end in
    (inr (map (set_session st c) (where_ (session_id_where id) (pomodoroSessionsTable s))),
     mkDb (usersTable s) (tasksTable s) (eventsTable s) (timeBlocksTable s)
          (map upd (pomodoroSessionsTable s)) (productivityStatsTable s)
          (next_time_block_id s) (next_stats_id s)).

(** The row [update_stats_row] writes, when its sums fit in [integer]. *)
Definition bump_stats (d : Z) (r : productivity_stats) : productivity_stats :=
  mkStats (st_id r) (st_user_id r) (st_date r) (st_tasks_completed r)
    (st_tasks_created r) (st_total_focus_time r + d) (st_pomodoro_sessions r + 1)
    (st_events_attended r).

Definition set_stats (f : list productivity_stats -> list productivity_stats)
  (next : Z) (s : db) : db :=
  mkDb (usersTable s) (tasksTable s) (eventsTable s) (timeBlocksTable s)
       (pomodoroSessionsTable s) (f (productivityStatsTable s))
       (next_time_block_id s) next.

(** Both sums of [bump_stats] fit in [integer]. *)
Definition bump_fits (d : Z) (r : productivity_stats) : bool :=
  int4_fits (st_total_focus_time r + d) && int4_fits (st_pomodoro_sessions r + 1).

(** [total_focus_time + duration, pomodoro_sessions + 1 WHERE id = ...]: one
    statement, which raises and writes nothing when a sum of a matched row
    overflows. *)
Definition update_stats_row (id d : Z) : M unit :=
  fun s =>
    let target r := sql_eq (Some (st_id r)) (Some id) in
    if forallb (bump_fits d) (where_ target (productivityStatsTable s))
    then (inr tt, set_stats (map (fun r => match target r with
                                           | STrue => bump_stats d r | _ => r end))
                            (next_stats_id s) s)
    else (inl IntegerOutOfRange, s).

(** [db.insert(productivityStatsTable).values(...)] with a serial id. *)
Definition insert_stats_row (user date d : Z) : M unit :=
  modify (fun s => set_stats
    (fun l => l ++ [mkStats (next_stats_id s) user date 0 0 d 1 0])
    (next_stats_id s + 1) s).

(** The row [update_task_duration] writes, when its sum fits in [integer]. *)
Definition add_actual_duration (d now : Z) (x : task) : task :=
  mkTask (t_id x) (t_user_id x) (t_title x) (t_due_date x)
    (Some (match t_actual_duration x with Some a => a | None => 0 end + d)) now.

(** The sum of [add_actual_duration] fits in [integer]. *)
Definition duration_fits (d : Z) (x : task) : bool :=
  int4_fits (match t_actual_duration x with Some a => a | None => 0 end + d).

(** [actual_duration = COALESCE(actual_duration, 0) + duration,
    updated_at = new Date() WHERE id = task_id]: raises and writes nothing
    when the sum of a matched row overflows. *)
Definition update_task_duration (t d now : Z) : M unit :=
  fun s =>
    let target x := sql_eq (Some (t_id x)) (Some t) in
    if forallb (duration_fits d) (where_ target (tasksTable s))
    then (inr tt,
          mkDb (usersTable s)
               (map (fun x => match target x with
                              | STrue => add_actual_duration d now x | _ => x end)
                    (tasksTable s))
               (eventsTable s) (timeBlocksTable s) (pomodoroSessionsTable s)
               (productivityStatsTable s) (next_time_block_id s) (next_stats_id s))
    else (inl IntegerOutOfRange, s).

(** The task update of a completion of [p] raises no overflow. *)
Definition task_fits (p : pomodoro_session) (s : db) : bool :=
  match truthy_id (ps_task_id p) with
  | Some t => forallb (duration_fits (ps_duration p))
                (where_ (fun x => sql_eq (Some (t_id x)) (Some t)) (tasksTable s))
  | None => true
  end.

Section Clock.

(** [midnight t] is [t] after [setHours(0, 0, 0, 0)] in the server's time
    zone; [DATE] is SQL's [DATE(...)] on a timestamp.  Both depend on the
    deployment's time zone and are left abstract. *)
Variable midnight : Z -> Z.
Variable DATE : Z -> Z.

Definition stats_today_where (user today : Z) (r : productivity_stats) : sqlbool :=
  sql_and (sql_eq (Some (st_user_id r)) (Some user))
          (sql_eq (Some (DATE (st_date r))) (Some (DATE today))).

(** Lines 44-93 of the handler: today's stats upsert and the task's actual
    duration, run when the requested status is [completed]. *)
Definition record_completion (existingSession : pomodoro_session) (now : Z) : M unit :=
  let today := midnight now in
  existingStats <- read (fun s =>
      where_ (stats_today_where (ps_user_id existingSession) today)
             (productivityStatsTable s)) ;;
  (match existingStats with
   | r :: _ => update_stats_row (st_id r) (ps_duration existingSession)
   | [] => insert_stats_row (ps_user_id existingSession) today
             (ps_duration existingSession)
   end) ;;;
  (match truthy_id (ps_task_id existingSession) with
   | Some t => update_task_duration t (ps_duration existingSession) now
   | None => ret tt
   end).

(** The stats update of a completion of [p] at [now] raises no overflow
    (an insert of a new row computes no sum). *)
Definition stats_fits (p : pomodoro_session) (now : Z) (s : db) : bool :=
  match where_ (stats_today_where (ps_user_id p) (midnight now)) (productivityStatsTable s) with
  | r :: _ => forallb (bump_fits (ps_duration p))
                (where_ (fun x => sql_eq (Some (st_id x)) (Some (st_id r)))
                        (productivityStatsTable s))
  | [] => true
  end.

(** Neither UPDATE of a completion raises. *)
Definition completion_fits (p : pomodoro_session) (now : Z) (s : db) : bool :=
  stats_fits p now s && task_fits p s.

(** [now] is the server clock ([new Date()]). *)
Definition updatePomodoroSession (i : UpdatePomodoroSessionInput) (now : Z)
  : M (option pomodoro_session) :=
  existingSessions <- read (fun s => where_ (session_id_where (up_id i)) (pomodoroSessionsTable s)) ;;
  match existingSessions with
  | [] => throw SessionNotFound
  | existingSession :: _ =>
      result <- update_sessions (up_id i) (up_status i) (update_completed_at i now) ;;
      let updatedSession := hd_error result in
      (if pomodoro_status_eqb (up_status i) completed
       then record_completion existingSession now
       else ret tt) ;;;
      ret updatedSession
  end.

End Clock.

(** ** getCalendarData *)




(** Pomodoro sessions counted for user [u] over all of its stats rows. *)
Definition total_pomodoros (u : Z) (l : list productivity_stats) : Z :=
  fold_right (fun r acc => (if Z.eqb (st_user_id r) u then st_pomodoro_sessions r else 0) + acc) 0 l.

(** ** Reads with ORDER BY *)

(** [and(...conditions)] over a list of conditions. *)
Definition sql_and_all (conditions : list sqlbool) : sqlbool :=
  fold_right sql_and STrue conditions.







(** ** The whole store: reminders, and the sequences of the tables above *)

Inductive reminder_type := notification | email | both.

Record reminder := mkReminder {
  rm_id : Z;
  rm_user_id : Z;
  rm_task_id : option Z;
  rm_event_id : option Z;
  rm_reminder_type : reminder_type;
  rm_reminder_time : Z;
  rm_message : string;
  rm_is_sent : bool;
  rm_created_at : Z
}.

(** The tables of [db], the reminders table, and the serial sequences of
    the reminders and Pomodoro sessions tables. *)
Record store := mkStore {
  tables : db;
  remindersTable : list reminder;
  next_reminder_id : Z;
  next_session_id : Z
}.

Inductive store_error :=
  | DbError (e : error)       (* an error of the handlers on [db], or of the store *)
  | TaskNotFoundOrDenied      (* 'Task not found or access denied' *)
  | ReminderTargetInvalid     (* 'Either task_id or event_id must be provided, but not both' *)
  | ReferencedTaskMissing     (* 'Referenced task does not exist' *)
  | ReferencedEventMissing    (* 'Referenced event does not exist' *)
  | BackupUserNotFound.       (* `User with ID ${userId} not found` *)

Definition with_tables (f : db -> db) (st : store) : store :=
  mkStore (f (tables st)) (remindersTable st) (next_reminder_id st) (next_session_id st).

Definition with_reminders (f : list reminder -> list reminder) (st : store) : store :=
  mkStore (tables st) (f (remindersTable st)) (next_reminder_id st) (next_session_id st).

Definition set_tasks (f : list task -> list task) (s : db) : db :=
  mkDb (usersTable s) (f (tasksTable s)) (eventsTable s) (timeBlocksTable s)
       (pomodoroSessionsTable s) (productivityStatsTable s)
       (next_time_block_id s) (next_stats_id s).


Definition set_time_blocks (f : list time_block -> list time_block) (s : db) : db :=
  mkDb (usersTable s) (tasksTable s) (eventsTable s) (f (timeBlocksTable s))
       (pomodoroSessionsTable s) (productivityStatsTable s)
       (next_time_block_id s) (next_stats_id s).

Definition set_sessions (f : list pomodoro_session -> list pomodoro_session) (s : db) : db :=
  mkDb (usersTable s) (tasksTable s) (eventsTable s) (timeBlocksTable s)
       (f (pomodoroSessionsTable s)) (productivityStatsTable s)
       (next_time_block_id s) (next_stats_id s).

(** A handler on [db] run on the whole store. *)
Definition on_tables {A} (m : M A) (st : store) : (store_error + A) * store :=
  let (r, s) := m (tables st) in
  (match r with inl e => inl (DbError e) | inr a => inr a end,
   with_tables (fun _ => s) st).

(** [DELETE ... WHERE p]: rows for which [p] is not TRUE stay. *)
Definition delete_where {A} (p : A -> sqlbool) (rows : list A) : list A :=
  filter (fun r => match p r with STrue => false | _ => true end) rows.

(** [ON DELETE CASCADE]: a nullable reference to one of the deleted [ids]. *)
Definition refers_to (ids : list Z) (r : option Z) : bool :=
  match r with Some t => existsb (Z.eqb t) ids | None => false end.

(** [db.delete(tasksTable).where(p)], with the cascades of the tasks'
    foreign keys in reminders, time blocks and Pomodoro sessions. *)
Definition delete_tasks (p : task -> sqlbool) (st : store) : store :=
  let ids := map t_id (where_ p (tasksTable (tables st))) in
  with_reminders (filter (fun r => negb (refers_to ids (rm_task_id r))))
    (with_tables (fun s =>
       set_sessions (filter (fun x => negb (refers_to ids (ps_task_id x))))
         (set_time_blocks (filter (fun b => negb (refers_to ids (tb_task_id b))))
            (set_tasks (delete_where p) s))) st).


(** ** createPomodoroSession (src/unnamed/part_011) *)

Record CreatePomodoroSessionInput := mkCreatePomodoroSessionInput {
  cp_user_id : Z;
  cp_task_id : option Z;
  cp_duration : Z;
  cp_break_duration : Z
}.

(** The insert: the store draws the serial id and the [defaultNow()] start
    time, then checks the foreign keys (a failed insert has used up its
    serial value); [completed_at] is NULL. *)
Definition createPomodoroSession (input : CreatePomodoroSessionInput) (now : Z)
  (st : store) : (store_error + pomodoro_session) * store :=
  let s := tables st in
  let fk_ok :=
    existsb (fun u => Z.eqb (u_id u) (cp_user_id input)) (usersTable s)
    && match cp_task_id input with
       | Some t => existsb (fun x => Z.eqb (t_id x) t) (tasksTable s)
       | None => true end in
  if fk_ok then
    let p := mkSession (next_session_id st) (cp_user_id input) (cp_task_id input)
               (cp_duration input) (cp_break_duration input) running now None in
    (inr p, mkStore (set_sessions (fun l => l ++ [p]) s) (remindersTable st)
                    (next_reminder_id st) (next_session_id st + 1))
  else (inl (DbError ForeignKeyViolation),
        mkStore s (remindersTable st) (next_reminder_id st) (next_session_id st + 1)).

(** ** deleteTask (src/unnamed/part_010, lines 5-37) *)

Definition task_owned_where (taskId userId : Z) (x : task) : sqlbool :=
  sql_and (sql_eq (Some (t_id x)) (Some taskId)) (sql_eq (Some (t_user_id x)) (Some userId)).

Definition deleteTask (taskId userId : Z) (st : store) : (store_error + bool) * store :=
  let existingTask := where_ (task_owned_where taskId userId) (tasksTable (tables st)) in
  if Nat.eqb (List.length existingTask) 0 then (inl TaskNotFoundOrDenied, st)
  else
    let st1 := with_reminders
                 (delete_where (fun r => sql_eq (rm_task_id r) (Some taskId))) st in
    let st2 := with_tables (set_time_blocks
                 (delete_where (fun b => sql_eq (tb_task_id b) (Some taskId)))) st1 in
    let st3 := delete_tasks (task_owned_where taskId userId) st2 in
    (inr true, st3).

(** ** deleteEvent (server/src/handlers/delete_event.ts) *)



(** ** createReminder (server/src/handlers/create_reminder.ts) *)

Record CreateReminderInput := mkCreateReminderInput {
  cr_user_id : Z;
  cr_task_id : option Z;
  cr_event_id : option Z;
  cr_reminder_type : reminder_type;
  cr_reminder_time : Z;
  cr_message : string
}.

(** The insert: the store checks the foreign keys on the values as given
    (a falsy task id 0 included), draws the serial id and [defaultNow()];
    a failed insert has used up its serial value. *)
Definition insert_reminder (input : CreateReminderInput) (now : Z) (st : store)
  : (store_error + reminder) * store :=
  let s := tables st in
  let fk_ok :=
    existsb (fun u => Z.eqb (u_id u) (cr_user_id input)) (usersTable s)
    && match cr_task_id input with
       | Some t => existsb (fun x => Z.eqb (t_id x) t) (tasksTable s)
       | None => true end
    && match cr_event_id input with
       | Some e => existsb (fun x => Z.eqb (e_id x) e) (eventsTable s)
       | None => true end in
  if fk_ok then
    let r := mkReminder (next_reminder_id st) (cr_user_id input) (cr_task_id input)
               (cr_event_id input) (cr_reminder_type input) (cr_reminder_time input)
               (cr_message input) false now in
    (inr r, mkStore s (remindersTable st ++ [r]) (next_reminder_id st + 1)
                    (next_session_id st))
  else (inl (DbError ForeignKeyViolation),
        mkStore s (remindersTable st) (next_reminder_id st + 1) (next_session_id st)).

Definition createReminder (input : CreateReminderInput) (now : Z) (st : store)
  : (store_error + reminder) * store :=
  let t := truthy_id (cr_task_id input) in
  let e := truthy_id (cr_event_id input) in
  match t, e with
  | Some _, Some _ | None, None => (inl ReminderTargetInvalid, st)
  | _, _ =>
    let task_ok :=
      match t with
      | Some tid => negb (Nat.eqb (List.length (where_ (fun x =>
                      sql_eq (Some (t_id x)) (Some tid)) (tasksTable (tables st)))) 0)
      | None => true end in
    let event_ok :=
      match e with
      | Some eid => negb (Nat.eqb (List.length (where_ (fun x =>
                      sql_eq (Some (e_id x)) (Some eid)) (eventsTable (tables st)))) 0)
      | None => true end in
    if negb task_ok then (inl ReferencedTaskMissing, st)
    else if negb event_ok then (inl ReferencedEventMissing, st)
    else insert_reminder input now st
  end.

(** ** getReminders (server/src/handlers/get_reminders.ts) *)

(** [LEFT JOIN r ON on]: each row with its matches, or with NULLs. *)
Definition left_join {A B} (on : A -> B -> sqlbool) (l : list A) (r : list B)
  : list (A * option B) :=
  flat_map (fun a => match where_ (on a) r with
                     | [] => [(a, None)]
                     | ms => map (fun b => (a, Some b)) ms
                     end) l.

(** [now] is the server clock.  The joined task and event columns are
    dropped by the final [map]. *)
Definition getReminders (userId now : Z) (st : store) : (store_error + list reminder) * store :=
  let joined :=
    left_join (fun (x : reminder * option task) (e : event) =>
                 sql_eq (rm_event_id (fst x)) (Some (e_id e)))
      (left_join (fun (r : reminder) (t : task) => sql_eq (rm_task_id r) (Some (t_id t)))
                 (remindersTable st) (tasksTable (tables st)))
      (eventsTable (tables st)) in
  let results := where_ (fun row =>
        let r := fst (fst row) in
        sql_and_all [sql_eq (Some (rm_user_id r)) (Some userId);
                     if Bool.eqb (rm_is_sent r) false then STrue else SFalse;
                     sql_lte (Some (rm_reminder_time r)) (Some now)]) joined in
  (inr (map (fun row => fst (fst row)) results), st).

(** ** backupUserData (server/src/handlers/backup_user_data.ts) *)




(** ** Invariants of the time-block table *)

(** No two blocks of one user overlap as half-open intervals. *)
Fixpoint blocks_disjoint (l : list time_block) : bool :=
  match l with
  | [] => true
  | b :: l' =>
      forallb (fun x => negb (Z.eqb (tb_user_id x) (tb_user_id b)
                              && (tb_start_time x <? tb_end_time b)
                              && (tb_start_time b <? tb_end_time x))) l'
      && blocks_disjoint l'
  end.

(** Every block ends after it starts. *)
Definition blocks_well_formed (l : list time_block) : bool :=
  forallb (fun b => tb_start_time b <? tb_end_time b) l.

(** ** Preconditions and outcomes used in the statements *)



(** Some block of the request's user overlaps the requested half-open
    interval. *)
Definition overlaps (i : CreateTimeBlockInput) (s : db) : Prop :=
  exists b, In b (timeBlocksTable s) /\ tb_user_id b = in_user_id i
    /\ tb_start_time b < in_end_time i /\ tb_end_time b > in_start_time i.

(** Success, or the error thrown. *)
Definition outcome {A} (r : error + A) : option error :=
  match r with inl e => Some e | inr _ => None end.

(** ** Sample stores *)

Definition db_two_users : db :=
  mkDb [mkUser 1; mkUser 2] [] [] [] [] [] 1 1.

Definition block_input (u start stop : Z) : CreateTimeBlockInput :=
  mkCreateTimeBlockInput u None None "focus" start stop None.

(** User 2 owns a block [10:00,12:00). *)
Definition db_user2_block : db :=
  mkDb [mkUser 1; mkUser 2] [] []
       [mkTimeBlock 1 2 None None "other" 10 12 None 0] [] [] 2 1.


(** A UTC deployment: [setHours(0,0,0,0)] and SQL [DATE] on millisecond
    timestamps. *)
Definition utc_midnight (t : Z) : Z := t - t mod 86400000.
Definition utc_date (t : Z) : Z := t / 86400000.




(** Block A [10:00,12:00), then B [12:00,14:00), then C [11:00,13:00). *)
Definition run_ABC : (error + time_block) * db :=
  let s1 := snd (createTimeBlock (block_input 1 10 12) 0 db_two_users) in
  let s2 := snd (createTimeBlock (block_input 1 12 14) 0 s1) in
  createTimeBlock (block_input 1 11 13) 0 s2.

(** Users 1 and 2; task 4 of user 1 and task 7 of user 2; event 3 of user 1;
    a block on event 3 and a block on task 4; a completed session on task 4;
    a reminder on task 4 at 10 and one on event 3 at 30. *)
Definition store_demo : store :=
  mkStore
    (mkDb [mkUser 1; mkUser 2]
          [mkTask 4 1 "plan" None None 0; mkTask 7 2 "theirs" None None 0]
          [mkEvent 3 1 "meeting" 5 6]
          [mkTimeBlock 1 1 None (Some 3) "meeting" 5 6 None 0;
           mkTimeBlock 2 1 (Some 4) None "plan" 8 9 None 0]
          [mkSession 1 1 (Some 4) 25 5 completed 0 (Some 100)]
          [] 3 1)
    [mkReminder 1 1 (Some 4) None notification 10 "plan" false 0;
     mkReminder 2 1 None (Some 3) email 30 "meeting" false 0]
    3 2.

Example run_ABC_rejected : fst run_ABC = inl TimeBlockConflict.
Proof. reflexivity. Qed.

Example run_ABC_two_blocks : List.length (timeBlocksTable (snd run_ABC)) = 2%nat.
Proof. reflexivity. Qed.

(** ** General lemmas *)

Lemma where_In {A} (p : A -> sqlbool) (l : list A) (x : A) :
  In x (where_ p l) <-> In x l /\ p x = STrue.
Proof.
  unfold where_. rewrite filter_In.
  destruct (p x); intuition congruence.
Qed.

Lemma where_nil {A} (p : A -> sqlbool) (l : list A) :
  where_ p l = [] <-> (forall x, In x l -> p x <> STrue).
Proof.
  split.
  - intros H x Hx Hp. assert (In x (where_ p l)) as Hw by (apply where_In; auto).
    rewrite H in Hw. destruct Hw.
  - intros H. destruct (where_ p l) as [|y ys] eqn:E; auto.
    assert (In y (where_ p l)) as Hy by (rewrite E; left; auto).
    apply where_In in Hy. destruct Hy as [Hy Hp]. exfalso; eapply H; eauto.
Qed.

Lemma length_zero_nil {A} (l : list A) : Nat.eqb (List.length l) 0 = true <-> l = [].
Proof. destruct l; simpl; split; congruence. Qed.

Lemma sql_and_true a b : sql_and a b = STrue <-> a = STrue /\ b = STrue.
Proof. destruct a, b; simpl; intuition congruence. Qed.

Lemma sql_cmp_some_true f x y : sql_cmp f (Some x) (Some y) = STrue <-> f x y = true.
Proof. simpl. destruct (f x y); intuition congruence. Qed.


Lemma conflict_where_true i b :
  conflict_where i b = STrue <->
  tb_user_id b = in_user_id i /\ tb_start_time b < in_end_time i
  /\ tb_end_time b > in_start_time i.
Proof.
  unfold conflict_where, sql_eq, sql_lt, sql_gt.
  rewrite !sql_and_true, !sql_cmp_some_true, Z.eqb_eq, Z.ltb_lt, Z.ltb_lt.
  lia.
Qed.

Lemma where_nonempty {A} (p : A -> sqlbool) l x :
  In x l -> p x = STrue -> Nat.eqb (List.length (where_ p l)) 0 = false.
Proof.
  intros Hx Hp. destruct (Nat.eqb _ 0) eqn:E; auto.
  apply length_zero_nil in E. exfalso; exact (proj1 (where_nil p l) E x Hx Hp).
Qed.





Lemma conflicts_nonempty_iff i s :
  Nat.ltb 0 (List.length (where_ (conflict_where i) (timeBlocksTable s))) = true
  <-> overlaps i s.
Proof.
  rewrite Nat.ltb_lt. split.
  - destruct (where_ (conflict_where i) (timeBlocksTable s)) as [|b bs] eqn:E.
    + simpl; lia.
    + intros _. assert (In b (where_ (conflict_where i) (timeBlocksTable s))) as Hb
        by (rewrite E; left; auto).
      apply where_In in Hb. destruct Hb as [Hb Hc]. apply conflict_where_true in Hc.
      exists b. tauto.
  - intros [b [Hb Hc]]. pose proof (where_nonempty (conflict_where i) _ b Hb) as H.
    rewrite conflict_where_true in H. specialize (H Hc).
    destruct (List.length _); [discriminate | lia].
Qed.

Lemma conflicts_same_user i l :
  where_ (conflict_where i) l
  = where_ (conflict_where i) (filter (fun b => Z.eqb (tb_user_id b) (in_user_id i)) l).
Proof.
  induction l as [|b l IH]; simpl; auto.
  destruct (Z.eqb (tb_user_id b) (in_user_id i)) eqn:E; simpl;
    destruct (conflict_where i b) eqn:C; rewrite IH; auto.
  exfalso. apply conflict_where_true in C. apply Z.eqb_neq in E. tauto.
Qed.

Lemma insert_time_block_outcome i now s1 s2 :
  usersTable s1 = usersTable s2 -> tasksTable s1 = tasksTable s2 ->
  eventsTable s1 = eventsTable s2 ->
  outcome (fst (insert_time_block now i s1)) = outcome (fst (insert_time_block now i s2)).
Proof.
  intros H1 H2 H3. unfold insert_time_block. rewrite H1, H2, H3.
  destruct (_ && _ && _); reflexivity.
Qed.






(** C7.  Two stores that agree on users, tasks, events and on the time
    blocks of user [u] give the same outcome for a [createTimeBlock] request
    of [u]: the same error, or success in both.  Blocks of other users,
    identical timestamps included, never matter. *)
Theorem createTimeBlock_other_users_irrelevant i now s1 s2 :
  usersTable s1 = usersTable s2 -> tasksTable s1 = tasksTable s2 ->
  eventsTable s1 = eventsTable s2 ->
  filter (fun b => Z.eqb (tb_user_id b) (in_user_id i)) (timeBlocksTable s1)
  = filter (fun b => Z.eqb (tb_user_id b) (in_user_id i)) (timeBlocksTable s2) ->
  outcome (fst (createTimeBlock i now s1)) = outcome (fst (createTimeBlock i now s2)).
Proof.
  intros H1 H2 H3 H4.
  unfold createTimeBlock, bind, read, throw, ret. cbn beta iota.
  repeat (first
    [ rewrite H1 | rewrite H2 | rewrite H3
    | rewrite (conflicts_same_user i (timeBlocksTable s1)),
              (conflicts_same_user i (timeBlocksTable s2)), H4
    | match goal with
      | |- context [if ?b then _ else _] => destruct b
      | |- context [match truthy_id ?o with _ => _ end] => destruct (truthy_id o)
      end ]; cbn beta iota);
  try reflexivity; apply insert_time_block_outcome; auto.
Qed.

Section PomodoroProofs.
Variable midnight : Z -> Z.
Variable DATE : Z -> Z.

Lemma pomodoro_status_eqb_spec a b : pomodoro_status_eqb a b = true <-> a = b.
Proof. destruct a, b; cbn; split; congruence. Qed.


(** A completion: the stats step raises on overflow and writes nothing;
    otherwise it upserts today's row, and the task step follows. *)
Lemma record_completion_run p now s :
  record_completion midnight DATE p now s =
  if stats_fits midnight DATE p now s then
    let s2 :=
      match where_ (stats_today_where DATE (ps_user_id p) (midnight now))
                   (productivityStatsTable s) with
      | r :: _ =>
          set_stats (map (fun x => match sql_eq (Some (st_id x)) (Some (st_id r)) with
                                   | STrue => bump_stats (ps_duration p) x | _ => x end))
                    (next_stats_id s) s
      | [] =>
          set_stats (fun l => l ++ [mkStats (next_stats_id s) (ps_user_id p) (midnight now)
                                            0 0 (ps_duration p) 1 0])
                    (next_stats_id s + 1) s
      end in
    match truthy_id (ps_task_id p) with
    | Some t => update_task_duration t (ps_duration p) now s2
    | None => (inr tt, s2)
    end
  else (inl IntegerOutOfRange, s).
Proof.
  unfold record_completion, stats_fits, bind, read, ret, update_stats_row,
    insert_stats_row, modify.
  cbn beta iota zeta.
  destruct (where_ _ (productivityStatsTable s)) as [|r rs].
  - destruct (truthy_id (ps_task_id p)); reflexivity.
  - destruct (forallb _ _); [|reflexivity].
    destruct (truthy_id (ps_task_id p)); reflexivity.
Qed.

Lemma record_completion_sessions p now s :
  pomodoroSessionsTable (snd (record_completion midnight DATE p now s))
  = pomodoroSessionsTable s.
Proof.
  rewrite record_completion_run. destruct (stats_fits midnight DATE p now s); [|reflexivity].
  unfold update_task_duration. cbn zeta.
  destruct (where_ _ (productivityStatsTable s)); destruct (truthy_id (ps_task_id p));
    try reflexivity; cbn beta; destruct (forallb _ _); reflexivity.
Qed.

(** The tables after a completion, in each of its outcomes. *)
Lemma record_completion_tables p now s :
  pomodoroSessionsTable (snd (record_completion midnight DATE p now s)) = pomodoroSessionsTable s
  /\ (stats_fits midnight DATE p now s = false ->
      record_completion midnight DATE p now s = (inl IntegerOutOfRange, s))
  /\ (stats_fits midnight DATE p now s = true ->
      productivityStatsTable (snd (record_completion midnight DATE p now s)) =
        match where_ (stats_today_where DATE (ps_user_id p) (midnight now))
                     (productivityStatsTable s) with
        | r :: _ => map (fun x => match sql_eq (Some (st_id x)) (Some (st_id r)) with
                                  | STrue => bump_stats (ps_duration p) x | _ => x end)
                        (productivityStatsTable s)
        | [] => productivityStatsTable s
                ++ [mkStats (next_stats_id s) (ps_user_id p) (midnight now) 0 0 (ps_duration p) 1 0]
        end
      /\ (task_fits p s = true ->
          fst (record_completion midnight DATE p now s) = inr tt
          /\ tasksTable (snd (record_completion midnight DATE p now s)) =
             match truthy_id (ps_task_id p) with
             | Some t => map (fun x => match sql_eq (Some (t_id x)) (Some t) with
                                       | STrue => add_actual_duration (ps_duration p) now x
                                       | _ => x end)
                             (tasksTable s)
             | None => tasksTable s
             end)
      /\ (task_fits p s = false ->
          fst (record_completion midnight DATE p now s) = inl IntegerOutOfRange
          /\ tasksTable (snd (record_completion midnight DATE p now s)) = tasksTable s)).
Proof.
  split; [apply record_completion_sessions|].
  rewrite record_completion_run. unfold task_fits, update_task_duration.
  destruct (stats_fits midnight DATE p now s); [|split; [reflexivity | discriminate]].
  split; [discriminate|]. intros _. cbn zeta.
  destruct (where_ _ (productivityStatsTable s)) as [|r rs];
    destruct (truthy_id (ps_task_id p)) as [t|]; cbn beta iota;
    cbn [set_stats tasksTable productivityStatsTable snd fst].
  all: try (destruct (forallb _ _)).
  all: split; [reflexivity|].
  all: split; intros H; try discriminate H; split; reflexivity.
Qed.

Lemma update_sessions_run id st c s :
  update_sessions id st c s
  = (inr (map (set_session st c) (where_ (session_id_where id) (pomodoroSessionsTable s))),
     snd (update_sessions id st c s)).
Proof. reflexivity. Qed.

Lemma updatePomodoroSession_found i now s p rest :
  where_ (session_id_where (up_id i)) (pomodoroSessionsTable s) = p :: rest ->
  updatePomodoroSession midnight DATE i now s =
    if pomodoro_status_eqb (up_status i) completed
    then (match fst (record_completion midnight DATE p now
                       (snd (update_sessions (up_id i) (up_status i) (update_completed_at i now) s)))
          with
          | inl e => inl e
          | inr _ => inr (Some (set_session (up_status i) (update_completed_at i now) p))
          end,
          snd (record_completion midnight DATE p now
                 (snd (update_sessions (up_id i) (up_status i) (update_completed_at i now) s))))
    else (inr (Some (set_session (up_status i) (update_completed_at i now) p)),
          snd (update_sessions (up_id i) (up_status i) (update_completed_at i now) s)).
Proof.
  intros Hf.
  unfold updatePomodoroSession, bind, read, throw, ret. rewrite Hf. cbn beta iota.
  rewrite update_sessions_run, Hf. cbn [map hd_error snd]. cbn beta iota.
  destruct (pomodoro_status_eqb (up_status i) completed); [|reflexivity].
  match goal with |- context [record_completion ?a ?b ?c ?d ?e] =>
    destruct (record_completion a b c d e) as [[?|[]] ?] end; reflexivity.
Qed.

Lemma fits_after_update_sessions id st c p now s :
  stats_fits midnight DATE p now (snd (update_sessions id st c s)) = stats_fits midnight DATE p now s
  /\ task_fits p (snd (update_sessions id st c s)) = task_fits p s
  /\ completion_fits midnight DATE p now (snd (update_sessions id st c s))
     = completion_fits midnight DATE p now s.
Proof. repeat split. Qed.

(** The result of an update of an existing session: the updated session,
    unless a completion raises on an overflowing sum. *)
Lemma updatePomodoroSession_result i now s p rest :
  where_ (session_id_where (up_id i)) (pomodoroSessionsTable s) = p :: rest ->
  ((up_status i <> completed \/ completion_fits midnight DATE p now s = true) ->
     fst (updatePomodoroSession midnight DATE i now s)
     = inr (Some (set_session (up_status i) (update_completed_at i now) p)))
  /\ (up_status i = completed -> completion_fits midnight DATE p now s = false ->
      fst (updatePomodoroSession midnight DATE i now s) = inl IntegerOutOfRange).
Proof.
  intros Hf. rewrite (updatePomodoroSession_found i now s p rest Hf).
  destruct (record_completion_tables p now
    (snd (update_sessions (up_id i) (up_status i) (update_completed_at i now) s)))
    as [_ [Hno Hyes]].
  destruct (fits_after_update_sessions (up_id i) (up_status i) (update_completed_at i now)
              p now s) as [E1 [E2 _]].
  rewrite E1 in Hno, Hyes. rewrite E2 in Hyes.
  unfold completion_fits. split.
  - intros H. destruct (pomodoro_status_eqb (up_status i) completed) eqn:Eb; [|reflexivity].
    apply pomodoro_status_eqb_spec in Eb.
    destruct H as [H|H]; [congruence|]. apply andb_prop in H. destruct H as [H1 H2].
    destruct (Hyes H1) as [_ [Ht _]]. destruct (Ht H2) as [Hr _].
    cbn [fst]. rewrite Hr. reflexivity.
  - intros Hc H.
    replace (pomodoro_status_eqb (up_status i) completed) with true by (rewrite Hc; reflexivity).
    cbn [fst].
    destruct (stats_fits midnight DATE p now s) eqn:Es.
    + rewrite andb_true_l in H. destruct (Hyes eq_refl) as [_ [_ Ht]].
      destruct (Ht H) as [Hr _]. rewrite Hr. reflexivity.
    + rewrite (Hno eq_refl). reflexivity.
Qed.

Lemma session_id_where_true id q : session_id_where id q = STrue <-> ps_id q = id.
Proof. unfold session_id_where, sql_eq. rewrite sql_cmp_some_true. apply Z.eqb_eq. Qed.




Lemma stats_today_found u day l r rest :
  where_ (stats_today_where DATE u day) l = r :: rest ->
  In r l /\ st_user_id r = u /\ DATE (st_date r) = DATE day.
Proof.
  intros H. assert (In r (where_ (stats_today_where DATE u day) l)) as Hr
    by (rewrite H; left; auto).
  apply where_In in Hr. destruct Hr as [Hr Ht].
  unfold stats_today_where, sql_eq in Ht.
  rewrite sql_and_true, !sql_cmp_some_true, !Z.eqb_eq in Ht. tauto.
Qed.

Lemma total_pomodoros_app u l1 l2 :
  total_pomodoros u (l1 ++ l2) = total_pomodoros u l1 + total_pomodoros u l2.
Proof. induction l1 as [|x l1 IH]; simpl; [lia | rewrite IH; lia]. Qed.

Lemma map_bump_other d id l :
  (forall x, In x l -> st_id x <> id) ->
  map (fun x => match sql_eq (Some (st_id x)) (Some id) with
                | STrue => bump_stats d x | _ => x end) l = l.
Proof.
  induction l as [|x l IH]; intros H; [reflexivity|]. cbn [map].
  rewrite IH by (intros y Hy; apply H; right; auto).
  unfold sql_eq, sql_cmp. destruct (Z.eqb (st_id x) id) eqn:E; auto.
  apply Z.eqb_eq in E. exfalso; apply (H x); auto; left; auto.
Qed.

Lemma total_pomodoros_bump d u r l :
  NoDup (map st_id l) -> In r l -> st_user_id r = u ->
  total_pomodoros u
    (map (fun x => match sql_eq (Some (st_id x)) (Some (st_id r)) with
                   | STrue => bump_stats d x | _ => x end) l)
  = total_pomodoros u l + 1.
Proof.
  induction l as [|x l IH]; intros Hnd Hr Hu; [destruct Hr|].
  simpl in Hnd. inversion Hnd as [|? ? Hnotin Hnd']; subst.
  destruct Hr as [Hr|Hr].
  - subst x. cbn [map]. rewrite map_bump_other.
    + unfold sql_eq, sql_cmp. rewrite Z.eqb_refl.
      unfold total_pomodoros. cbn [fold_right]. simpl. rewrite Z.eqb_refl. lia.
    + intros y Hy Heq. apply Hnotin. rewrite <- Heq. apply in_map; auto.
  - assert (Hne : st_id x <> st_id r)
      by (intros Heq; apply Hnotin; rewrite Heq; apply in_map; auto).
    cbn [map]. unfold total_pomodoros in *. cbn [fold_right].
    rewrite IH by auto.
    assert (Hx : sql_eq (Some (st_id x)) (Some (st_id r)) = SFalse)
      by (unfold sql_eq, sql_cmp; apply Z.eqb_neq in Hne; rewrite Hne; auto).
    rewrite Hx. lia.
Qed.


Lemma where_app {A} (q : A -> sqlbool) l1 l2 :
  where_ q (l1 ++ l2) = where_ q l1 ++ where_ q l2.
Proof. unfold where_. apply filter_app. Qed.


(** The state after completing an existing session, in each outcome. *)
Lemma updatePomodoroSession_completed_tables i now s p rest :
  where_ (session_id_where (up_id i)) (pomodoroSessionsTable s) = p :: rest ->
  up_status i = completed ->
  (stats_fits midnight DATE p now s = false ->
     fst (updatePomodoroSession midnight DATE i now s) = inl IntegerOutOfRange
     /\ productivityStatsTable (snd (updatePomodoroSession midnight DATE i now s))
        = productivityStatsTable s
     /\ tasksTable (snd (updatePomodoroSession midnight DATE i now s)) = tasksTable s)
  /\ (stats_fits midnight DATE p now s = true ->
     productivityStatsTable (snd (updatePomodoroSession midnight DATE i now s)) =
       match where_ (stats_today_where DATE (ps_user_id p) (midnight now))
                    (productivityStatsTable s) with
       | r :: _ => map (fun x => match sql_eq (Some (st_id x)) (Some (st_id r)) with
                                 | STrue => bump_stats (ps_duration p) x | _ => x end)
                       (productivityStatsTable s)
       | [] => productivityStatsTable s
               ++ [mkStats (next_stats_id s) (ps_user_id p) (midnight now) 0 0 (ps_duration p) 1 0]
       end
     /\ (task_fits p s = true ->
         tasksTable (snd (updatePomodoroSession midnight DATE i now s)) =
           match truthy_id (ps_task_id p) with
           | Some t => map (fun x => match sql_eq (Some (t_id x)) (Some t) with
                                     | STrue => add_actual_duration (ps_duration p) now x
                                     | _ => x end)
                           (tasksTable s)
           | None => tasksTable s
           end)
     /\ (task_fits p s = false ->
         fst (updatePomodoroSession midnight DATE i now s) = inl IntegerOutOfRange
         /\ tasksTable (snd (updatePomodoroSession midnight DATE i now s)) = tasksTable s)).
Proof.
  intros Hf Hc. rewrite (updatePomodoroSession_found i now s p rest Hf), Hc.
  cbn [pomodoro_status_eqb fst snd].
  destruct (record_completion_tables p now
    (snd (update_sessions (up_id i) completed (update_completed_at i now) s)))
    as [_ [Hno Hyes]].
  destruct (fits_after_update_sessions (up_id i) completed (update_completed_at i now)
              p now s) as [E1 [E2 _]].
  rewrite E1 in Hno, Hyes. rewrite E2 in Hyes.
  split.
  - intros H. rewrite (Hno H). split; [reflexivity | split; reflexivity].
  - intros H. destruct (Hyes H) as [Hst [Ht Ht']]. split; [exact Hst|]. split.
    + intros H2. exact (proj2 (Ht H2)).
    + intros H2. destruct (Ht' H2) as [Hr Htt]. rewrite Hr. split; [reflexivity | exact Htt].
Qed.











End PomodoroProofs.


(** ** Reads, deletions and inserts of the other handlers *)




Section Sorting.
Context {A : Type} (le : A -> A -> bool) (R : A -> A -> Prop).
Hypothesis le_R : forall a b, le a b = true -> R a b.
Hypothesis le_total : forall a b, le a b = false -> R b a.



End Sorting.

Lemma sql_and_STrue_r c : sql_and c STrue = c.
Proof. destruct c; reflexivity. Qed.

Ltac sql_facts :=
  unfold sql_and_all, sql_eq, sql_gte, sql_lte in *; cbn [fold_right app] in *;
  rewrite ?sql_and_STrue_r in *;
  repeat (rewrite sql_and_true in * || rewrite sql_cmp_some_true in *);
  rewrite ?Z.eqb_eq, ?Z.leb_le in *.

(** Every run of [createTimeBlock] throws before any write and leaves the
    store as it was, or fails the insert's foreign-key check after drawing
    the serial value, or appends exactly the block it returns. *)
Lemma createTimeBlock_shape i now s :
  (exists e, createTimeBlock i now s = (inl e, s))
  \/ createTimeBlock i now s =
       (inl ForeignKeyViolation,
        mkDb (usersTable s) (tasksTable s) (eventsTable s) (timeBlocksTable s)
             (pomodoroSessionsTable s) (productivityStatsTable s)
             (next_time_block_id s + 1) (next_stats_id s))
  \/ (exists b, createTimeBlock i now s =
        (inr b, mkDb (usersTable s) (tasksTable s) (eventsTable s) (timeBlocksTable s ++ [b])
                     (pomodoroSessionsTable s) (productivityStatsTable s)
                     (next_time_block_id s + 1) (next_stats_id s))
      /\ b = mkTimeBlock (next_time_block_id s) (in_user_id i) (in_task_id i)
               (in_event_id i) (in_title i) (in_start_time i) (in_end_time i)
               (in_color i) now
      /\ in_start_time i < in_end_time i
      /\ ~ overlaps i s).
Proof.
  unfold createTimeBlock, bind, read, throw, ret. cbn beta iota.
  repeat match goal with
         | |- context [match truthy_id ?o with _ => _ end] => destruct (truthy_id o)
         | |- context [if ?c then _ else _] => destruct c eqn:?
         end;
  try (left; eexists; reflexivity).
  all: unfold insert_time_block; cbv zeta.
  all: match goal with |- context [if ?c then _ else _] => destruct c end;
       [right; right | right; left; reflexivity].
  all: eexists; split; [reflexivity|]; split; [reflexivity|].
  all: match goal with H : (_ <=? _) = false |- _ => apply Z.leb_gt in H end.
  all: split; [assumption|].
  all: intros Ho; apply conflicts_nonempty_iff in Ho; congruence.
Qed.


Lemma blocks_disjoint_snoc l b :
  blocks_disjoint (l ++ [b]) = true <->
  blocks_disjoint l = true
  /\ (forall x, In x l -> tb_user_id x = tb_user_id b -> tb_start_time x < tb_end_time b ->
                tb_start_time b < tb_end_time x -> False).
Proof.
  induction l as [|a l IH]; simpl.
  - split; [intros _; split; [reflexivity | intros x []] | reflexivity].
  - rewrite !andb_true_iff, IH, forallb_app. simpl.
    rewrite andb_true_r, andb_true_iff, negb_true_iff, !andb_false_iff, Z.eqb_neq, !Z.ltb_ge.
    split.
    + intros [[HF Hb] [Hd Hx]]. split; [split; assumption|].
      intros x [<-|Hin] Hu H1 H2; [lia | exact (Hx x Hin Hu H1 H2)].
    + intros [[HF Hd] Hx]. split; [split; [exact HF|] | split; [exact Hd|]].
      * destruct (Z.eq_dec (tb_user_id b) (tb_user_id a)) as [Hu|Hu]; [|left; left; exact Hu].
        destruct (Z_lt_ge_dec (tb_start_time b) (tb_end_time a)); [|left; right; lia].
        destruct (Z_lt_ge_dec (tb_start_time a) (tb_end_time b)); [|right; lia].
        exfalso. apply (Hx a); auto.
      * intros x Hin. apply Hx. right; exact Hin.
Qed.

(** X1.  [createTimeBlock] preserves the invariant that no two blocks of one
    user overlap: if the stored blocks are pairwise disjoint per user before
    the request, they still are after it, whether it succeeds or fails. *)
Theorem createTimeBlock_keeps_blocks_disjoint i now s :
  blocks_disjoint (timeBlocksTable s) = true ->
  blocks_disjoint (timeBlocksTable (snd (createTimeBlock i now s))) = true.
Proof.
  intros Hd.
  destruct (createTimeBlock_shape i now s) as [[e He]|[He|[b [Hb [Hbv [_ Hno]]]]]];
    [rewrite He; exact Hd | rewrite He; exact Hd |].
  - rewrite Hb. cbn [snd timeBlocksTable]. apply blocks_disjoint_snoc.
    split; [exact Hd|]. subst b. cbn [tb_user_id tb_start_time tb_end_time].
    intros x Hx Hu H1 H2. apply Hno. exists x. repeat split; auto; lia.
Qed.

(** X2.  [createTimeBlock] preserves the invariant that every stored block
    ends after it starts. *)
Theorem createTimeBlock_keeps_blocks_well_formed i now s :
  blocks_well_formed (timeBlocksTable s) = true ->
  blocks_well_formed (timeBlocksTable (snd (createTimeBlock i now s))) = true.
Proof.
  intros Hw.
  destruct (createTimeBlock_shape i now s) as [[e He]|[He|[b [Hb [Hbv [Hr _]]]]]];
    [rewrite He; exact Hw | rewrite He; exact Hw |].
  - rewrite Hb. cbn [snd timeBlocksTable]. unfold blocks_well_formed in *.
    rewrite forallb_app, Hw. subst b. simpl. rewrite andb_true_r. apply Z.ltb_lt. exact Hr.
Qed.











Lemma on_tables_run {A} (m : M A) st :
  on_tables m st =
  (match fst (m (tables st)) with inl e => inl (DbError e) | inr a => inr a end,
   with_tables (fun _ => snd (m (tables st))) st).
Proof. unfold on_tables. destruct (m (tables st)); reflexivity. Qed.

(** X10.  Creating a Pomodoro session and then completing it by the id it
    was given (the session sequence being ahead of the stored ids, as a
    serial is) returns the session completed now, and adds one Pomodoro to
    its user's stats (stats ids being unique), when the sums of the
    completion's UPDATEs fit in [integer]. *)
Theorem createPomodoroSession_then_complete midnight DATE input now now' st p :
  fst (createPomodoroSession input now st) = inr p ->
  (forall q, In q (pomodoroSessionsTable (tables st)) -> ps_id q <> next_session_id st) ->
  NoDup (map st_id (productivityStatsTable (tables st))) ->
  completion_fits midnight DATE p now' (tables st) = true ->
  let st1 := snd (createPomodoroSession input now st) in
  let r := on_tables (updatePomodoroSession midnight DATE
                        (mkUpdatePomodoroSessionInput (ps_id p) completed None) now') st1 in
  fst r = inr (Some (mkSession (ps_id p) (cp_user_id input) (cp_task_id input)
                       (cp_duration input) (cp_break_duration input) completed now
                       (Some now')))
  /\ total_pomodoros (cp_user_id input) (productivityStatsTable (tables (snd r)))
     = total_pomodoros (cp_user_id input) (productivityStatsTable (tables st)) + 1.
Proof.
  intros Hp Hfresh Hnd Hfit. cbv zeta.
  unfold createPomodoroSession in *. cbv zeta in *.
  destruct (_ && _); [|discriminate].
  cbn [fst] in Hp. injection Hp as <-. cbn [snd tables ps_id].
  set (p := mkSession (next_session_id st) (cp_user_id input) (cp_task_id input)
              (cp_duration input) (cp_break_duration input) running now None).
  set (i := mkUpdatePomodoroSessionInput (next_session_id st) completed None).
  set (s1 := set_sessions (fun l => l ++ [p]) (tables st)).
  assert (Hf : where_ (session_id_where (up_id i)) (pomodoroSessionsTable s1) = [p]).
  { unfold s1, set_sessions. cbn [pomodoroSessionsTable up_id i].
    rewrite where_app.
    replace (where_ (session_id_where (next_session_id st)) (pomodoroSessionsTable (tables st)))
      with (@nil pomodoro_session).
    - unfold where_ at 1. cbn [filter]. unfold session_id_where, sql_eq, sql_cmp.
      cbn [ps_id p]. rewrite Z.eqb_refl. reflexivity.
    - symmetry. apply where_nil. intros q Hq Ht. apply session_id_where_true in Ht.
      exact (Hfresh q Hq Ht). }
  rewrite !on_tables_run. cbn [tables with_tables].
  split.
  - rewrite (proj1 (updatePomodoroSession_result midnight DATE i now' s1 p [] Hf)
               (or_intror Hfit)).
    reflexivity.
  - apply andb_prop in Hfit. destruct Hfit as [Hfit _].
    destruct (proj2 (updatePomodoroSession_completed_tables midnight DATE i now' s1 p [] Hf
                       eq_refl) Hfit)
      as [Hst _].
    cbn [snd tables with_tables]. rewrite Hst.
    assert (Hs1 : productivityStatsTable s1 = productivityStatsTable (tables st)) by reflexivity.
    destruct (where_ (stats_today_where DATE (ps_user_id p) (midnight now'))
                     (productivityStatsTable s1)) as [|r rs] eqn:Ew.
    + rewrite total_pomodoros_app, Hs1. unfold total_pomodoros at 2. cbn.
      rewrite Z.eqb_refl. lia.
    + apply (stats_today_found DATE) in Ew. rewrite Hs1 in *.
      apply total_pomodoros_bump; [exact Hnd | tauto | apply Ew].
Qed.

Lemma delete_where_In {A} (p : A -> sqlbool) l x :
  In x (delete_where p l) <-> In x l /\ p x <> STrue.
Proof.
  unfold delete_where. rewrite filter_In. destruct (p x); intuition congruence.
Qed.



Lemma refers_to_single ids k o :
  ids <> [] -> (forall t, In t ids -> t = k) ->
  refers_to ids o = match o with Some t => Z.eqb t k | None => false end.
Proof.
  intros Hne Hall. destruct o as [t|]; [|reflexivity]. simpl.
  destruct (Z.eqb t k) eqn:E.
  - apply Z.eqb_eq in E. subst t. destruct ids as [|a l]; [congruence|].
    apply existsb_exists. exists a. split; [left; reflexivity|].
    apply Z.eqb_eq. symmetry. apply Hall. left; reflexivity.
  - apply Z.eqb_neq in E. apply not_true_iff_false. rewrite existsb_exists.
    intros [a [Ha Hta]]. apply Z.eqb_eq in Hta. apply E. rewrite Hta. apply Hall; exact Ha.
Qed.

Lemma In_filter_not_refers {A} ids k (f : A -> option Z) l x :
  ids <> [] -> (forall t, In t ids -> t = k) ->
  In x (filter (fun y => negb (refers_to ids (f y))) l) <-> In x l /\ f x <> Some k.
Proof.
  intros Hne Hall. rewrite filter_In, (refers_to_single ids k _ Hne Hall).
  destruct (f x) as [t|]; simpl.
  - destruct (Z.eqb t k) eqn:E; simpl.
    + apply Z.eqb_eq in E. subst. intuition congruence.
    + apply Z.eqb_neq in E. intuition congruence.
  - intuition congruence.
Qed.

Lemma sql_eq_some_r o k : sql_eq o (Some k) = STrue <-> o = Some k.
Proof.
  destruct o as [t|]; unfold sql_eq; simpl.
  - destruct (Z.eqb t k) eqn:E; [apply Z.eqb_eq in E | apply Z.eqb_neq in E];
      intuition congruence.
  - intuition congruence.
Qed.

Lemma task_owned_where_true taskId userId x :
  task_owned_where taskId userId x = STrue <-> t_id x = taskId /\ t_user_id x = userId.
Proof. unfold task_owned_where. sql_facts. reflexivity. Qed.

Lemma owned_ids {A} (p : A -> sqlbool) (key : A -> Z) k l :
  (forall x, p x = STrue -> key x = k) -> forall t, In t (map key (where_ p l)) -> t = k.
Proof.
  intros Hk t Ht. apply in_map_iff in Ht. destruct Ht as [x [<- Hx]].
  apply where_In in Hx. apply Hk. tauto.
Qed.

Lemma map_nonempty {A B} (f : A -> B) l : l <> [] -> map f l <> [].
Proof. destruct l; simpl; congruence. Qed.


Lemma deleteTask_owned_effect taskId userId st x :
  In x (tasksTable (tables st)) -> t_id x = taskId -> t_user_id x = userId ->
  let st' := snd (deleteTask taskId userId st) in
  fst (deleteTask taskId userId st) = inr true
  /\ (forall y, In y (tasksTable (tables st')) <->
        In y (tasksTable (tables st)) /\ ~ (t_id y = taskId /\ t_user_id y = userId))
  /\ (forall r, In r (remindersTable st') <->
        In r (remindersTable st) /\ rm_task_id r <> Some taskId)
  /\ (forall b, In b (timeBlocksTable (tables st')) <->
        In b (timeBlocksTable (tables st)) /\ tb_task_id b <> Some taskId)
  /\ (forall p, In p (pomodoroSessionsTable (tables st')) <->
        In p (pomodoroSessionsTable (tables st)) /\ ps_task_id p <> Some taskId)
  /\ usersTable (tables st') = usersTable (tables st)
  /\ eventsTable (tables st') = eventsTable (tables st)
  /\ productivityStatsTable (tables st') = productivityStatsTable (tables st).
Proof.
  intros Hx Hid Hu. cbv zeta.
  assert (Hne : where_ (task_owned_where taskId userId) (tasksTable (tables st)) <> []).
  { intros E. apply (proj1 (where_nil _ _) E x Hx). apply task_owned_where_true. auto. }
  assert (Hids := owned_ids (task_owned_where taskId userId) t_id taskId
                    (tasksTable (tables st))
                    (fun y Hy => proj1 (proj1 (task_owned_where_true _ _ y) Hy))).
  assert (Hne' := map_nonempty t_id _ Hne).
  unfold deleteTask. cbv zeta.
  destruct (where_ (task_owned_where taskId userId) (tasksTable (tables st))) as [|w ws] eqn:E;
    [congruence|].
  cbn [List.length Nat.eqb fst snd].
  unfold delete_tasks, with_reminders, with_tables, set_sessions, set_time_blocks, set_tasks.
  cbn [tables remindersTable usersTable tasksTable eventsTable timeBlocksTable
       pomodoroSessionsTable productivityStatsTable]. rewrite E.
  split; [reflexivity|]. split; [|split; [|split; [|split; [|split; [reflexivity | split; reflexivity]]]]].
  - intros y. rewrite delete_where_In, task_owned_where_true. reflexivity.
  - intros r. rewrite (In_filter_not_refers _ taskId _ _ _ Hne' Hids), delete_where_In,
      sql_eq_some_r. tauto.
  - intros b. rewrite (In_filter_not_refers _ taskId _ _ _ Hne' Hids), delete_where_In,
      sql_eq_some_r. tauto.
  - intros p. rewrite (In_filter_not_refers _ taskId _ _ _ Hne' Hids). reflexivity.
Qed.

(** X12.  [deleteTask] on a task the user owns succeeds; afterwards the task
    is gone, and so is every reminder, time block and Pomodoro session that
    referred to it (the sessions through the database cascade); every other
    row stays, and users, events and stats are untouched. *)
Theorem deleteTask_removes_task_and_references taskId userId st x :
  In x (tasksTable (tables st)) -> t_id x = taskId -> t_user_id x = userId ->
  let st' := snd (deleteTask taskId userId st) in
  fst (deleteTask taskId userId st) = inr true
  /\ (forall y, In y (tasksTable (tables st')) <->
        In y (tasksTable (tables st)) /\ ~ (t_id y = taskId /\ t_user_id y = userId))
  /\ (forall r, In r (remindersTable st') <->
        In r (remindersTable st) /\ rm_task_id r <> Some taskId)
  /\ (forall b, In b (timeBlocksTable (tables st')) <->
        In b (timeBlocksTable (tables st)) /\ tb_task_id b <> Some taskId)
  /\ (forall p, In p (pomodoroSessionsTable (tables st')) <->
        In p (pomodoroSessionsTable (tables st)) /\ ps_task_id p <> Some taskId)
  /\ usersTable (tables st') = usersTable (tables st)
  /\ eventsTable (tables st') = eventsTable (tables st)
  /\ productivityStatsTable (tables st') = productivityStatsTable (tables st).
Proof. exact (deleteTask_owned_effect taskId userId st x). Qed.





(** The outcome of [createReminder]: it throws, or appends the reminder it
    returns. *)
Lemma createReminder_shape input now st :
  (exists e st', createReminder input now st = (inl e, st'))
  \/ (exists r, createReminder input now st =
        (inr r, mkStore (tables st) (remindersTable st ++ [r]) (next_reminder_id st + 1)
                        (next_session_id st))
      /\ r = mkReminder (next_reminder_id st) (cr_user_id input) (cr_task_id input)
               (cr_event_id input) (cr_reminder_type input) (cr_reminder_time input)
               (cr_message input) false now).
Proof.
  unfold createReminder. cbv zeta.
  destruct (truthy_id (cr_task_id input)), (truthy_id (cr_event_id input));
    try (left; do 2 eexists; reflexivity).
  all: repeat match goal with |- context [if ?c then _ else _] =>
         lazymatch c with
         | context [usersTable] => fail
         | _ => destruct c
         end
       end; try (left; do 2 eexists; reflexivity).
  all: unfold insert_reminder; cbv zeta.
  all: match goal with |- context [if ?c then _ else _] => destruct c end;
       [right; eexists; split; reflexivity | left; do 2 eexists; reflexivity].
Qed.


(** X15.  [createReminder] throws the one-target validation error exactly
    when the task id and the event id are both truthy or both falsy (null
    or 0), and then it writes nothing. *)
Theorem createReminder_needs_exactly_one_target input now st :
  (fst (createReminder input now st) = inl ReminderTargetInvalid
   <-> (truthy_id (cr_task_id input) = None <-> truthy_id (cr_event_id input) = None))
  /\ ((truthy_id (cr_task_id input) = None <-> truthy_id (cr_event_id input) = None) ->
      createReminder input now st = (inl ReminderTargetInvalid, st)).
Proof.
  assert (Hrun : (truthy_id (cr_task_id input) = None <-> truthy_id (cr_event_id input) = None) ->
                 createReminder input now st = (inl ReminderTargetInvalid, st)).
  { intros H. unfold createReminder. cbv zeta.
    destruct (truthy_id (cr_task_id input)), (truthy_id (cr_event_id input)); try reflexivity;
      exfalso; destruct H as [H1 H2]; first [discriminate (H1 eq_refl) | discriminate (H2 eq_refl)]. }
  split; [|exact Hrun]. split; [|intros H; rewrite (Hrun H); reflexivity].
  unfold createReminder. cbv zeta.
  destruct (truthy_id (cr_task_id input)), (truthy_id (cr_event_id input));
    try (intros; split; congruence).
  all: repeat match goal with |- context [if ?c then _ else _] =>
         lazymatch c with
         | context [usersTable] => fail
         | _ => destruct c
         end
       end; try (cbn [fst]; discriminate).
  all: unfold insert_reminder; cbv zeta;
       match goal with |- context [if ?c then _ else _] => destruct c end;
       cbn [fst]; discriminate.
Qed.


Lemma left_join_fst {A B} (on : A -> B -> sqlbool) l r row :
  In row (left_join on l r) -> In (fst row) l.
Proof.
  unfold left_join. rewrite in_flat_map. intros [a [Ha Hrow]].
  destruct (where_ (on a) r) as [|b bs]; cbn [map In] in Hrow.
  - destruct Hrow as [<-|[]]; exact Ha.
  - destruct Hrow as [<-|Hrow]; [exact Ha|].
    apply in_map_iff in Hrow. destruct Hrow as [b' [<- _]]. exact Ha.
Qed.

Lemma left_join_covers {A B} (on : A -> B -> sqlbool) l r a :
  In a l -> exists ob, In (a, ob) (left_join on l r).
Proof.
  intros Ha. unfold left_join.
  destruct (where_ (on a) r) as [|b bs] eqn:E; [exists None | exists (Some b)];
    apply in_flat_map; exists a; (split; [exact Ha|]); rewrite E; left; reflexivity.
Qed.

Lemma reminder_due_true userId now r :
  sql_and_all [sql_eq (Some (rm_user_id r)) (Some userId);
               if Bool.eqb (rm_is_sent r) false then STrue else SFalse;
               sql_lte (Some (rm_reminder_time r)) (Some now)] = STrue
  <-> rm_user_id r = userId /\ rm_is_sent r = false /\ rm_reminder_time r <= now.
Proof.
  unfold sql_and_all, sql_eq, sql_lte. cbn [fold_right]. rewrite sql_and_STrue_r.
  rewrite !sql_and_true, !sql_cmp_some_true, Z.eqb_eq, Z.leb_le.
  destruct (rm_is_sent r); cbn; intuition congruence.
Qed.

Lemma getReminders_run userId now st :
  exists res, getReminders userId now st = (inr res, st)
  /\ forall r, In r res <-> In r (remindersTable st) /\ rm_user_id r = userId
                 /\ rm_is_sent r = false /\ rm_reminder_time r <= now.
Proof.
  eexists; split; [reflexivity|]. intros r. rewrite in_map_iff. split.
  - intros [row [<- Hrow]]. apply where_In in Hrow. destruct Hrow as [Hrow Hp].
    apply reminder_due_true in Hp. split; [|exact Hp].
    apply left_join_fst, left_join_fst in Hrow. exact Hrow.
  - intros [Hr Hp]. apply reminder_due_true in Hp.
    destruct (left_join_covers (fun (r : reminder) (t : task) => sql_eq (rm_task_id r) (Some (t_id t)))
                _ (tasksTable (tables st)) r Hr) as [ot Ht].
    destruct (left_join_covers (fun (x : reminder * option task) (e : event) =>
                 sql_eq (rm_event_id (fst x)) (Some (e_id e))) _ (eventsTable (tables st)) _ Ht)
      as [oe He].
    exists (r, ot, oe). split; [reflexivity|]. apply where_In. split; [exact He | exact Hp].
Qed.






Lemma createReminder_success input now st r :
  fst (createReminder input now st) = inr r ->
  snd (createReminder input now st)
    = mkStore (tables st) (remindersTable st ++ [r]) (next_reminder_id st + 1) (next_session_id st)
  /\ rm_user_id r = cr_user_id input /\ rm_is_sent r = false
  /\ rm_reminder_time r = cr_reminder_time input.
Proof.
  intros H. destruct (createReminder_shape input now st) as [[e [st' He]]|[r' [He Hr']]];
    rewrite He in H |- *; cbn [fst] in H; [discriminate|].
  injection H as <-. subst r'. repeat split.
Qed.

(** X19.  A reminder created by [createReminder] is returned by
    [getReminders] for its user at any time from its reminder time on. *)
Theorem createReminder_then_getReminders input now now' st r :
  fst (createReminder input now st) = inr r -> cr_reminder_time input <= now' ->
  exists res,
    fst (getReminders (cr_user_id input) now' (snd (createReminder input now st))) = inr res
    /\ In r res.
Proof.
  intros H Hdue. destruct (createReminder_success input now st r H) as [Hs [Hu [Hn Ht]]].
  rewrite Hs.
  destruct (getReminders_run (cr_user_id input) now'
              (mkStore (tables st) (remindersTable st ++ [r]) (next_reminder_id st + 1)
                       (next_session_id st))) as [res [Hres Hin]].
  exists res. rewrite Hres. split; [reflexivity|]. apply Hin. cbn [remindersTable].
  split; [apply in_or_app; right; left; reflexivity|]. repeat split; auto; lia.
Qed.


Lemma NoDup_map_same {A} (f : A -> Z) l a b :
  NoDup (map f l) -> In a l -> In b l -> f a = f b -> a = b.
Proof.
  induction l as [|x l IH]; intros Hnd Ha Hb Hab; [destruct Ha|].
  cbn [map] in Hnd. inversion Hnd as [|? ? Hnot Hnd']; subst.
  destruct Ha as [<-|Ha], Hb as [<-|Hb]; auto.
  - exfalso. apply Hnot. rewrite Hab. apply in_map; exact Hb.
  - exfalso. apply Hnot. rewrite <- Hab. apply in_map; exact Ha.
Qed.

(** X21.  After [deleteTask] removes a task its user owns, a Pomodoro
    session that was on that task is gone with it (session ids being
    unique): updating it by its id fails with the session-not-found error
    and changes nothing. *)
Theorem deleteTask_then_session_not_found midnight DATE taskId userId st x p i now :
  In x (tasksTable (tables st)) -> t_id x = taskId -> t_user_id x = userId ->
  In p (pomodoroSessionsTable (tables st)) -> ps_task_id p = Some taskId ->
  NoDup (map ps_id (pomodoroSessionsTable (tables st))) -> up_id i = ps_id p ->
  let st' := snd (deleteTask taskId userId st) in
  on_tables (updatePomodoroSession midnight DATE i now) st' = (inl (DbError SessionNotFound), st').
Proof.
  intros Hx Hid Hu Hp Hpt Hnd Hi. cbv zeta.
  destruct (deleteTask_owned_effect taskId userId st x Hx Hid Hu)
    as [_ [_ [_ [_ [Hses _]]]]].
  set (st' := snd (deleteTask taskId userId st)) in *.
  assert (Hw : where_ (session_id_where (up_id i)) (pomodoroSessionsTable (tables st')) = []).
  { apply where_nil. intros q Hq Ht. apply session_id_where_true in Ht.
    apply Hses in Hq. destruct Hq as [Hq Hqt].
    assert (q = p) by (apply (NoDup_map_same ps_id _ _ _ Hnd Hq Hp); congruence).
    subst q. exact (Hqt Hpt). }
  rewrite on_tables_run. unfold updatePomodoroSession, bind, read, throw. rewrite Hw.
  cbn [fst snd]. destruct st' as [s rm nr ns]. reflexivity.
Qed.
(** ** Witnesses and counterexamples on the sample stores *)



Lemma createTimeBlock_other_users_irrelevant_witness :
  usersTable db_user2_block = usersTable db_two_users
  /\ outcome (fst (createTimeBlock (block_input 1 10 12) 0 db_user2_block))
     = outcome (fst (createTimeBlock (block_input 1 10 12) 0 db_two_users)).
Proof.
  split; [reflexivity|].
  apply createTimeBlock_other_users_irrelevant; reflexivity.
Defined.











(** ** Witnesses of the other handlers' theorems on the sample stores *)

Ltac nodup_small := repeat constructor; cbn; intuition discriminate.

Lemma createTimeBlock_keeps_blocks_disjoint_witness :
  blocks_disjoint (timeBlocksTable (tables store_demo)) = true
  /\ blocks_disjoint (timeBlocksTable
       (snd (createTimeBlock (block_input 1 6 8) 0 (tables store_demo)))) = true.
Proof.
  split; [reflexivity|].
  apply createTimeBlock_keeps_blocks_disjoint. reflexivity.
Defined.

Lemma createTimeBlock_keeps_blocks_well_formed_witness :
  blocks_well_formed (timeBlocksTable (tables store_demo)) = true
  /\ blocks_well_formed (timeBlocksTable
       (snd (createTimeBlock (block_input 1 6 8) 0 (tables store_demo)))) = true.
Proof.
  split; [reflexivity|].
  apply createTimeBlock_keeps_blocks_well_formed. reflexivity.
Defined.



Lemma createPomodoroSession_then_complete_witness :
  fst (createPomodoroSession (mkCreatePomodoroSessionInput 1 (Some 4) 25 5) 0 store_demo)
    = inr (mkSession 2 1 (Some 4) 25 5 running 0 None)
  /\ total_pomodoros 1 (productivityStatsTable (tables (snd
       (on_tables (updatePomodoroSession utc_midnight utc_date
                     (mkUpdatePomodoroSessionInput 2 completed None) 1000)
          (snd (createPomodoroSession (mkCreatePomodoroSessionInput 1 (Some 4) 25 5) 0
                  store_demo))))))
     = total_pomodoros 1 (productivityStatsTable (tables store_demo)) + 1.
Proof.
  split; [reflexivity|].
  apply (createPomodoroSession_then_complete utc_midnight utc_date
           (mkCreatePomodoroSessionInput 1 (Some 4) 25 5) 0 1000 store_demo
           (mkSession 2 1 (Some 4) 25 5 running 0 None)).
  - reflexivity.
  - intros q Hq. destruct Hq as [<-|[]]. cbn. lia.
  - constructor.
  - reflexivity.
Defined.


Lemma deleteTask_removes_task_and_references_witness :
  In (mkTask 4 1 "plan" None None 0) (tasksTable (tables store_demo))
  /\ fst (deleteTask 4 1 store_demo) = inr true
  /\ remindersTable (snd (deleteTask 4 1 store_demo))
     = [mkReminder 2 1 None (Some 3) email 30 "meeting" false 0].
Proof.
  split; [left; reflexivity|].
  split; [|reflexivity].
  apply (deleteTask_removes_task_and_references 4 1 store_demo (mkTask 4 1 "plan" None None 0));
    [left|..]; reflexivity.
Defined.




Lemma createReminder_then_getReminders_witness :
  fst (createReminder (mkCreateReminderInput 1 (Some 4) None notification 12 "soon") 0 store_demo)
    = inr (mkReminder 3 1 (Some 4) None notification 12 "soon" false 0)
  /\ exists res,
       fst (getReminders 1 15 (snd (createReminder
              (mkCreateReminderInput 1 (Some 4) None notification 12 "soon") 0 store_demo)))
       = inr res
       /\ In (mkReminder 3 1 (Some 4) None notification 12 "soon" false 0) res.
Proof.
  split; [reflexivity|].
  apply (createReminder_then_getReminders
           (mkCreateReminderInput 1 (Some 4) None notification 12 "soon") 0 15 store_demo).
  - reflexivity.
  - cbn. lia.
Defined.

Lemma deleteTask_then_session_not_found_witness :
  on_tables (updatePomodoroSession utc_midnight utc_date
               (mkUpdatePomodoroSessionInput 1 completed None) 1000)
            (snd (deleteTask 4 1 store_demo))
  = (inl (DbError SessionNotFound), snd (deleteTask 4 1 store_demo)).
Proof.
  apply (deleteTask_then_session_not_found utc_midnight utc_date 4 1 store_demo
           (mkTask 4 1 "plan" None None 0) (mkSession 1 1 (Some 4) 25 5 completed 0 (Some 100))).
  - left; reflexivity.
  - reflexivity.
  - reflexivity.
  - left; reflexivity.
  - reflexivity.
  - nodup_small.
  - reflexivity.
Defined.
